(** * The Firebase connectivity-check endpoint

    A shallow embedding of [backend/app/apis/firebase/__init__.py]: the
    request and response models and the handler [test_database], run in a
    small state-and-exception monad that records what the handler prints
    and which calls it makes on the key-value storage client. *)

From stdpp Require Import base strings gmap list.

Local Open Scope string_scope.
Local Open Scope list_scope.

(** ** Values *)

(** What [db.storage.json.get] hands back: a decoded JSON document.  The
    handler never looks inside it, it only stores it in the payload. *)
#[local] Unset Elimination Schemes.
Inductive Json : Type :=
| JNull
| JBool (b : bool)
| JNum (n : Z)
| JStr (s : string)
| JArr (items : list Json)
| JObj (fields : list (string * Json)).
#[local] Set Elimination Schemes.

(** A Python [dict] literal with [str] keys, in insertion order. *)
Abbreviation PyDict := (list (string * Json)).

Definition dict_keys (d : PyDict) : list string := d.*1.

(** An instance of Python's [Exception], the class that the handler's
    [except Exception as e] clause matches; [exc_str] is [str(e)]. *)
Record PyException : Type := mkException {
  exc_class : string;
  exc_str : string
}.

(** How a Python call ends: with a value, or with a raised exception. *)
Inductive outcome (A : Type) : Type :=
| Returned (a : A)
| Raised (e : PyException).
Arguments Returned {A} a.
Arguments Raised {A} e.

Definition is_returned {A} (o : outcome A) : bool :=
  match o with Returned _ => true | Raised _ => false end.

(** ** The request and response models *)

(** [class TestDatabaseRequest(BaseModel)] *)
Record TestDatabaseRequest : Type := mkRequest {
  path : string
}.

(** [class TestDatabaseResponse(BaseModel)]; [data] defaults to [None]. *)
Record TestDatabaseResponse : Type := mkResponse {
  success : bool;
  message : string;
  data : option PyDict
}.

(** ** The collaborators *)

(** What the handler does to the outside, in the order it does it. *)
Inductive Event : Type :=
| Printed (line : string)
| JsonGet (key : string) (dflt : Json).

Definition is_print (ev : Event) : bool :=
  match ev with Printed _ => true | JsonGet _ _ => false end.

(** Modelled from the spec: the storage client [databutton.storage.json]
    is a third-party package; of it the handler uses [get(key, default=...)],
    "a key-value store exposing at minimum read(key, default) -> value".
    A read either returns a value or raises; any type of store states [S]
    with any such read is an instance. *)
Class JsonStorage (S : Type) : Type :=
  json_get : S → string → Json → outcome Json.

(** The process as the handler sees it: the store behind [db.storage] and
    the chronological record of prints and storage calls. *)
Record World (S : Type) : Type := mkWorld {
  storage : S;
  events : list Event
}.
Arguments mkWorld {S} storage events.
Arguments storage {S} w.
Arguments events {S} w.

(** The lines written to the standard output, oldest first. *)
Definition stdout {S} (w : World S) : list string :=
  omap (λ ev, match ev with Printed l => Some l | JsonGet _ _ => None end)
       (events w).

(** The calls made on the storage client, oldest first. *)
Definition storage_calls {S} (w : World S) : list Event :=
  filter (λ ev, is_print ev = false) (events w).

(** ** Python statements as a state-and-exception monad *)

Definition Py (S A : Type) : Type := World S → outcome A * World S.

Section Monad.
Context {S : Type}.

Definition py_ret {A} (a : A) : Py S A := λ w, (Returned a, w).

Definition py_bind {A B} (m : Py S A) (k : A → Py S B) : Py S B :=
  λ w, match m w with
       | (Returned a, w') => k a w'
       | (Raised e, w') => (Raised e, w')
       end.

(** [try: body / except Exception as e: handler e] *)
Definition try_except {A} (body : Py S A) (handler : PyException → Py S A)
  : Py S A :=
  λ w, match body w with
       | (Returned a, w') => (Returned a, w')
       | (Raised e, w') => handler e w'
       end.

Definition emit (ev : Event) (w : World S) : World S :=
  mkWorld (storage w) (events w ++ [ev]).

(** [print(line)] *)
Definition print (line : string) : Py S unit :=
  λ w, (Returned tt, emit (Printed line) w).

(** [db.storage.json.get(key, default=dflt)]: the call is recorded, the
    store answers, and the store itself is left as it was. *)
Definition storage_json_get `{!JsonStorage S} (key : string) (dflt : Json)
  : Py S Json :=
  λ w, (json_get (storage w) key dflt, emit (JsonGet key dflt) w).
End Monad.

#[global] Instance Py_ret {S} : MRet (Py S) := @py_ret S.
#[global] Instance Py_bind {S} : MBind (Py S) := λ A B k m, py_bind m k.

(** ** The handler *)

Definition TIMESTAMP_KEY : string := "firebase_test_timestamp".

Definition DATABASE_URL : string :=
  "https://meetudatabutton-default-rtdb.europe-west1.firebasedatabase.app".

Section Handler.
Context {S : Type} `{!JsonStorage S}.

(** [@router.post("/test-database") def test_database(request)] *)
Definition test_database (request : TestDatabaseRequest)
  : Py S TestDatabaseResponse :=
  try_except
    (print ("Testing database connection at path: " +:+ path request);;
     testTimestamp ← storage_json_get TIMESTAMP_KEY (JObj []);
     mret {| success := true;
             message := "Firebase Realtime Database test successful. Path '"
                          +:+ path request +:+ "' is accessible.";
             data := Some [("testTimestamp", testTimestamp);
                           ("databaseUrl", JStr DATABASE_URL)] |})
    (λ e,
     print ("Error testing database connection: " +:+ exc_str e);;
     mret {| success := false;
             message := "Firebase Realtime Database test failed: "
                          +:+ exc_str e;
             data := None |}).
End Handler.

(** ** A concrete store *)

(** Modelled from the spec: the store keeps JSON documents under string
    keys; [get] with a default answers the stored document, or the default
    "if the key is absent", and raises while the store cannot be reached. *)
Record Store : Type := mkStore {
  blobs : gmap string Json;
  outage : option PyException
}.

#[global] Instance Store_json_storage : JsonStorage Store :=
  λ st key dflt,
    match outage st with
    | Some e => Raised e
    | None => Returned (default dflt (blobs st !! key))
    end.

(** Stores used in the examples: an empty reachable store, a reachable
    store holding a timestamp, and a store that refuses connections. *)
Definition empty_store : Store := mkStore ∅ None.

Definition stamped_store : Store :=
  mkStore {[ "firebase_test_timestamp" := JNum 1700000000 ]} None.

Definition connection_refused : PyException :=
  mkException "ConnectionError" "connection refused".

Definition refusing_store : Store := mkStore ∅ (Some connection_refused).

(** The process before the first request. *)
Definition boot {S} (st : S) : World S := mkWorld st [].

(** ** How one call of the handler runs *)

Section Run.
Context {S : Type} `{!JsonStorage S}.
Implicit Types (request : TestDatabaseRequest) (w : World S).

(** The line printed at the top of the [try] block. *)
Definition request_line request : string :=
  "Testing database connection at path: " +:+ path request.

(** The line printed by the [except] clause. *)
Definition error_line (e : PyException) : string :=
  "Error testing database connection: " +:+ exc_str e.

(** The world once the request is logged and the key is asked for. *)
Definition after_read request w : World S :=
  emit (JsonGet "firebase_test_timestamp" (JObj []))
       (emit (Printed (request_line request)) w).

Lemma test_database_returned request w v :
  json_get (storage w) "firebase_test_timestamp" (JObj []) = Returned v →
  test_database request w =
    (Returned {| success := true;
                 message := "Firebase Realtime Database test successful. Path '"
                              +:+ path request +:+ "' is accessible.";
                 data := Some [("testTimestamp", v);
                               ("databaseUrl", JStr DATABASE_URL)] |},
     after_read request w).
Proof.
  intros Hget.
  unfold test_database, try_except, mbind, Py_bind, py_bind, mret, Py_ret,
    py_ret, print, storage_json_get, after_read, TIMESTAMP_KEY.
  cbn [storage emit]. by rewrite Hget.
Qed.

Lemma test_database_raised request w e :
  json_get (storage w) "firebase_test_timestamp" (JObj []) = Raised e →
  test_database request w =
    (Returned {| success := false;
                 message := "Firebase Realtime Database test failed: "
                              +:+ exc_str e;
                 data := None |},
     emit (Printed (error_line e)) (after_read request w)).
Proof.
  intros Hget.
  unfold test_database, try_except, mbind, Py_bind, py_bind, mret, Py_ret,
    py_ret, print, storage_json_get, after_read, TIMESTAMP_KEY.
  cbn [storage emit]. by rewrite Hget.
Qed.

Lemma storage_emit ev w : storage (emit ev w) = storage w.
Proof. done. Qed.

Lemma stdout_emit_print line w :
  stdout (emit (Printed line) w) = stdout w ++ [line].
Proof. unfold stdout, emit; cbn. by rewrite omap_app. Qed.

Lemma stdout_emit_get key dflt w :
  stdout (emit (JsonGet key dflt) w) = stdout w.
Proof. unfold stdout, emit; cbn. by rewrite omap_app, app_nil_r. Qed.

Lemma storage_calls_emit_print line w :
  storage_calls (emit (Printed line) w) = storage_calls w.
Proof. unfold storage_calls, emit; cbn. by rewrite filter_app, app_nil_r. Qed.

Lemma storage_calls_emit_get key dflt w :
  storage_calls (emit (JsonGet key dflt) w)
  = storage_calls w ++ [JsonGet key dflt].
Proof. unfold storage_calls, emit; cbn. by rewrite filter_app. Qed.

(** Case analysis on the answer of the store, for goals about one call. *)
Ltac by_read request w :=
  let v := fresh "v" in
  let e := fresh "e" in
  let Hget := fresh "Hget" in
  destruct (json_get (storage w) "firebase_test_timestamp" (JObj []))
    as [v|e] eqn:Hget;
  [ rewrite (test_database_returned request w v Hget)
  | rewrite (test_database_raised request w e Hget) ].

(** ** Properties of the handler, for every store *)

(** C1: for every request and every behaviour of the store, the handler
    returns a [TestDatabaseResponse] and raises nothing; its [success]
    field tells whether the read of the store returned, so an exception
    raised by the read is turned into a response with [success = false]. *)
Theorem test_database_always_responds request w :
  ∃ resp,
    (test_database request w).1 = Returned resp ∧
    success resp
    = is_returned (json_get (storage w) "firebase_test_timestamp" (JObj [])).
Proof. by_read request w; eauto. Qed.

(** C2: when the read of ["firebase_test_timestamp"] with default [{}]
    returns [v] without raising, the response has [success = true],
    [data.testTimestamp = v] and the fixed [data.databaseUrl]. *)
Theorem test_database_read_ok request w v :
  json_get (storage w) "firebase_test_timestamp" (JObj []) = Returned v →
  ∃ resp d,
    (test_database request w).1 = Returned resp ∧
    success resp = true ∧
    data resp = Some d ∧
    d = [("testTimestamp", v);
         ("databaseUrl",
          JStr "https://meetudatabutton-default-rtdb.europe-west1.firebasedatabase.app")].
Proof.
  intros Hget. rewrite (test_database_returned request w v Hget).
  by do 2 eexists.
Qed.

(** C3: when the read raises [e], the response has [success = false], the
    message ["Firebase Realtime Database test failed: "] followed by
    [str(e)], and [data = None]; for [str(e) = "connection refused"] the
    message is ["Firebase Realtime Database test failed: connection refused"]. *)
Theorem test_database_read_raises request w e :
  json_get (storage w) "firebase_test_timestamp" (JObj []) = Raised e →
  ∃ resp,
    (test_database request w).1 = Returned resp ∧
    success resp = false ∧
    message resp = "Firebase Realtime Database test failed: " +:+ exc_str e ∧
    data resp = None ∧
    (exc_str e = "connection refused" →
     message resp
     = "Firebase Realtime Database test failed: connection refused").
Proof.
  intros Hget. rewrite (test_database_raised request w e Hget).
  eexists; repeat split; cbn [message]. by intros ->.
Qed.

(** C4: two requests that differ only in [path], run on the same store,
    make the same single read of ["firebase_test_timestamp"] and get
    responses with the same [success] and [data]; the path reaches the
    response only through the message of the success branch. *)
Theorem path_does_not_steer (r1 r2 : TestDatabaseRequest) (st : S)
    (evs1 evs2 : list Event) :
  ∃ resp1 resp2,
    (test_database r1 (mkWorld st evs1)).1 = Returned resp1 ∧
    (test_database r2 (mkWorld st evs2)).1 = Returned resp2 ∧
    success resp1 = success resp2 ∧
    data resp1 = data resp2 ∧
    storage_calls (test_database r1 (mkWorld st evs1)).2
    = storage_calls (mkWorld st evs1)
      ++ [JsonGet "firebase_test_timestamp" (JObj [])] ∧
    storage_calls (test_database r2 (mkWorld st evs2)).2
    = storage_calls (mkWorld st evs2)
      ++ [JsonGet "firebase_test_timestamp" (JObj [])] ∧
    message resp1
    = (if success resp1
       then "Firebase Realtime Database test successful. Path '"
              +:+ path r1 +:+ "' is accessible."
       else message resp2).
Proof.
  destruct (json_get st "firebase_test_timestamp" (JObj [])) as [v|e] eqn:Hget.
  - rewrite (test_database_returned r1 (mkWorld st evs1) v Hget),
      (test_database_returned r2 (mkWorld st evs2) v Hget).
    do 2 eexists. repeat split; cbn [fst snd];
      unfold after_read;
      by rewrite storage_calls_emit_get, storage_calls_emit_print.
  - rewrite (test_database_raised r1 (mkWorld st evs1) e Hget),
      (test_database_raised r2 (mkWorld st evs2) e Hget).
    do 2 eexists. repeat split; cbn [fst snd];
      unfold after_read;
      by rewrite storage_calls_emit_print, storage_calls_emit_get,
        storage_calls_emit_print.
Qed.

(** C6, amended: every call first prints the request line; when the read
    returns that is the only line, when the read raises [e] the error line
    follows it, two lines in all.  Besides these prints the call makes the
    one read of the store and leaves the store as it was. *)
Theorem test_database_log_lines request w :
  stdout (test_database request w).2
  = stdout w
    ++ ("Testing database connection at path: " +:+ path request)
    :: match json_get (storage w) "firebase_test_timestamp" (JObj []) with
       | Returned _ => []
       | Raised e => ["Error testing database connection: " +:+ exc_str e]
       end
  ∧ events (test_database request w).2
    = events w
      ++ Printed ("Testing database connection at path: " +:+ path request)
      :: JsonGet "firebase_test_timestamp" (JObj [])
      :: match json_get (storage w) "firebase_test_timestamp" (JObj []) with
         | Returned _ => []
         | Raised e =>
             [Printed ("Error testing database connection: " +:+ exc_str e)]
         end
  ∧ storage (test_database request w).2 = storage w.
Proof.
  by_read request w; cbn [snd]; unfold after_read.
  - rewrite stdout_emit_get, stdout_emit_print.
    split; [done|]. split; [|done]. cbn. by rewrite <- app_assoc.
  - rewrite stdout_emit_print, stdout_emit_get, stdout_emit_print.
    split; [by rewrite <- app_assoc|]. split; [|done].
    cbn. by rewrite <- !app_assoc.
Qed.

(** C7: the response is a function of the request and of the state of the
    store: two calls on the same store agree whatever was logged before,
    and a second call made right after the first, on the store the first
    one left, gives the same response again. *)
Theorem test_database_repeatable request (st : S) (evs1 evs2 : list Event) :
  (test_database request (mkWorld st evs1)).1
  = (test_database request (mkWorld st evs2)).1
  ∧ (test_database request (test_database request (mkWorld st evs1)).2).1
    = (test_database request (mkWorld st evs1)).1.
Proof.
  destruct (json_get st "firebase_test_timestamp" (JObj [])) as [v|e] eqn:Hget.
  - rewrite (test_database_returned request (mkWorld st evs1) v Hget),
      (test_database_returned request (mkWorld st evs2) v Hget).
    split; [done|]. cbn [snd].
    by rewrite (test_database_returned request
                  (after_read request (mkWorld st evs1)) v Hget).
  - rewrite (test_database_raised request (mkWorld st evs1) e Hget),
      (test_database_raised request (mkWorld st evs2) e Hget).
    split; [done|]. cbn [snd].
    by rewrite (test_database_raised request
                  (emit (Printed (error_line e))
                        (after_read request (mkWorld st evs1))) e Hget).
Qed.

(** C9: the handler never writes to the store: after the call the store
    is the one before it, and the only call made on the storage client is
    one read of ["firebase_test_timestamp"] with default [{}]. *)
Theorem test_database_only_reads request w :
  storage (test_database request w).2 = storage w ∧
  storage_calls (test_database request w).2
  = storage_calls w ++ [JsonGet "firebase_test_timestamp" (JObj [])].
Proof.
  by_read request w; cbn [snd]; unfold after_read; split; try done.
  - by rewrite storage_calls_emit_get, storage_calls_emit_print.
  - by rewrite storage_calls_emit_print, storage_calls_emit_get,
      storage_calls_emit_print.
Qed.

(** C10: in every response [success] is true exactly when [data] is not
    [None], and a present [data] has the two keys ["testTimestamp"] and
    ["databaseUrl"] and no other. *)
Theorem response_invariant request w :
  ∃ resp,
    (test_database request w).1 = Returned resp ∧
    (success resp = true ↔ data resp ≠ None) ∧
    (∀ d, data resp = Some d → dict_keys d = ["testTimestamp"; "databaseUrl"]).
Proof.
  by_read request w; eexists; (split; [done|]); cbn [success data]; split.
  - done.
  - by intros d [= <-].
  - split; [done|]. by intros [].
  - by intros d [=].
Qed.

End Run.

(** ** The handler on the concrete store *)

Lemma store_get_absent (st : Store) (key : string) (dflt : Json) :
  outage st = None → blobs st !! key = None →
  json_get st key dflt = Returned dflt.
Proof.
  intros Hup Hkey. unfold json_get, Store_json_storage.
  by rewrite Hup, Hkey.
Qed.

Lemma store_get_outage (st : Store) (key : string) (dflt : Json) e :
  outage st = Some e → json_get st key dflt = Raised e.
Proof.
  intros Hdown. unfold json_get, Store_json_storage. by rewrite Hdown.
Qed.

Example run_on_stamped_store :
  (test_database (mkRequest "/events/42") (boot stamped_store)).1
  = Returned
      {| success := true;
         message := "Firebase Realtime Database test successful. Path '/events/42' is accessible.";
         data := Some [("testTimestamp", JNum 1700000000);
                       ("databaseUrl", JStr DATABASE_URL)] |}.
Proof. vm_compute. reflexivity. Qed.

Example run_on_refusing_store :
  test_database (mkRequest "/events/42") (boot refusing_store)
  = (Returned
       {| success := false;
          message := "Firebase Realtime Database test failed: connection refused";
          data := None |},
     mkWorld refusing_store
       [Printed "Testing database connection at path: /events/42";
        JsonGet "firebase_test_timestamp" (JObj []);
        Printed "Error testing database connection: connection refused"]).
Proof. reflexivity. Qed.

Lemma test_database_read_ok_witness :
  json_get (storage (boot stamped_store)) "firebase_test_timestamp" (JObj [])
  = Returned (JNum 1700000000)
  ∧ ∃ resp d,
      (test_database (mkRequest "/users/test") (boot stamped_store)).1
      = Returned resp ∧
      success resp = true ∧
      data resp = Some d ∧
      d = [("testTimestamp", JNum 1700000000);
           ("databaseUrl",
            JStr "https://meetudatabutton-default-rtdb.europe-west1.firebasedatabase.app")].
Proof.
  split; [vm_compute; reflexivity|].
  apply (test_database_read_ok (mkRequest "/users/test") (boot stamped_store)
           (JNum 1700000000)).
  vm_compute; reflexivity.
Defined.

Lemma test_database_read_raises_witness :
  json_get (storage (boot refusing_store)) "firebase_test_timestamp" (JObj [])
  = Raised connection_refused
  ∧ ∃ resp,
      (test_database (mkRequest "/users/test") (boot refusing_store)).1
      = Returned resp ∧
      success resp = false ∧
      message resp
      = "Firebase Realtime Database test failed: " +:+ "connection refused" ∧
      data resp = None ∧
      ("connection refused" = "connection refused" →
       message resp
       = "Firebase Realtime Database test failed: connection refused").
Proof.
  split; [reflexivity|].
  apply (test_database_read_raises (mkRequest "/users/test")
           (boot refusing_store) connection_refused).
  reflexivity.
Defined.

(** C5, as stated, fails: with the key absent from a reachable store the
    read answers the default and the handler reports success. *)
Lemma missing_key_is_not_a_failure :
  blobs empty_store !! "firebase_test_timestamp" = None
  ∧ (test_database (mkRequest "/users/test") (boot empty_store)).1
    = Returned
        {| success := true;
           message := "Firebase Realtime Database test successful. Path '/users/test' is accessible.";
           data := Some [("testTimestamp", JObj []);
                         ("databaseUrl", JStr DATABASE_URL)] |}
  ∧ ¬ ∃ resp,
        (test_database (mkRequest "/users/test") (boot empty_store)).1
        = Returned resp ∧ success resp = false.
Proof.
  assert (Hrun : test_database (mkRequest "/users/test") (boot empty_store)
                 = (Returned
                      {| success := true;
                         message := "Firebase Realtime Database test successful. Path '/users/test' is accessible.";
                         data := Some [("testTimestamp", JObj []);
                                       ("databaseUrl", JStr DATABASE_URL)] |},
                    after_read (mkRequest "/users/test") (boot empty_store))).
  { by apply (test_database_returned (mkRequest "/users/test")
                (boot empty_store) (JObj [])). }
  split; [done|]. rewrite Hrun. split; [done|].
  by intros (resp & [= <-] & Hfalse).
Qed.

(** C5, amended: a missing key is not a failure of the read.  With the key
    absent, a store that can be reached answers the default [{}] and the
    response has [success = true] and [data.testTimestamp = {}]; only a
    read that raises gives [success = false] and the failure message. *)
Theorem missing_key_reads_default request (w : World Store) :
  blobs (storage w) !! "firebase_test_timestamp" = None →
  ∃ resp,
    (test_database request w).1 = Returned resp ∧
    match outage (storage w) with
    | None =>
        success resp = true ∧
        data resp
        = Some [("testTimestamp", JObj []);
                ("databaseUrl",
                 JStr "https://meetudatabutton-default-rtdb.europe-west1.firebasedatabase.app")]
    | Some e =>
        success resp = false ∧
        message resp = "Firebase Realtime Database test failed: " +:+ exc_str e ∧
        data resp = None
    end.
Proof.
  intros Hkey. destruct (outage (storage w)) as [e|] eqn:Hout.
  - rewrite (test_database_raised request w e
               (store_get_outage _ _ _ e Hout)). eauto.
  - rewrite (test_database_returned request w (JObj [])
               (store_get_absent _ _ _ Hout Hkey)). eauto.
Qed.

Lemma missing_key_reads_default_witness :
  blobs (storage (boot empty_store)) !! "firebase_test_timestamp" = None
  ∧ ∃ resp,
      (test_database (mkRequest "/users/test") (boot empty_store)).1
      = Returned resp ∧
      success resp = true ∧
      data resp
      = Some [("testTimestamp", JObj []);
              ("databaseUrl",
               JStr "https://meetudatabutton-default-rtdb.europe-west1.firebasedatabase.app")].
Proof.
  split; [reflexivity|].
  apply (missing_key_reads_default (mkRequest "/users/test") (boot empty_store)).
  reflexivity.
Defined.

(** C6, as stated, fails: when the read raises, the request line printed
    at the top of the [try] block is followed by the error line. *)
Lemma failure_branch_prints_two_lines :
  stdout (test_database (mkRequest "/users/test") (boot refusing_store)).2
  = ["Testing database connection at path: /users/test";
     "Error testing database connection: connection refused"]
  ∧ length (stdout (test_database (mkRequest "/users/test")
                      (boot refusing_store)).2) ≠ 1.
Proof. split; [reflexivity|]. vm_compute. discriminate. Qed.

(** C8: for the path ["/users/test"], with no value stored under the
    timestamp key of a reachable store, the response is exactly the one of
    the example. *)
Theorem users_test_example (w : World Store) :
  outage (storage w) = None →
  blobs (storage w) !! "firebase_test_timestamp" = None →
  (test_database (mkRequest "/users/test") w).1
  = Returned
      {| success := true;
         message := "Firebase Realtime Database test successful. Path '/users/test' is accessible.";
         data := Some [("testTimestamp", JObj []);
                       ("databaseUrl",
                        JStr "https://meetudatabutton-default-rtdb.europe-west1.firebasedatabase.app")] |}.
Proof.
  intros Hup Hkey.
  by rewrite (test_database_returned (mkRequest "/users/test") w (JObj [])
                (store_get_absent _ _ _ Hup Hkey)).
Qed.

Lemma users_test_example_witness :
  outage (storage (boot empty_store)) = None
  ∧ blobs (storage (boot empty_store)) !! "firebase_test_timestamp" = None
  ∧ (test_database (mkRequest "/users/test") (boot empty_store)).1
    = Returned
        {| success := true;
           message := "Firebase Realtime Database test successful. Path '/users/test' is accessible.";
           data := Some [("testTimestamp", JObj []);
                         ("databaseUrl",
                          JStr "https://meetudatabutton-default-rtdb.europe-west1.firebasedatabase.app")] |}.
Proof.
  split; [reflexivity|]. split; [reflexivity|].
  apply (users_test_example (boot empty_store)); reflexivity.
Defined.

(** ** Further properties of the handler *)

(** *** Strings glued by the f-strings *)

Lemma append_cancel_l (p s1 s2 : string) : p +:+ s1 = p +:+ s2 → s1 = s2.
Proof. induction p as [|c p IH]; cbn; [done|]. intros [= Heq]. auto. Qed.

Lemma length_append (s t : string) :
  String.length (s +:+ t) = String.length s + String.length t.
Proof.
  induction s as [|c s IH]; [done|].
  change (S (String.length (s +:+ t))
          = S (String.length s + String.length t)).
  by rewrite IH.
Qed.

Lemma append_cancel_r (t s1 s2 : string) : s1 +:+ t = s2 +:+ t → s1 = s2.
Proof.
  revert s2. induction s1 as [|c s1 IH]; intros [|c' s2] Heq.
  - done.
  - apply (f_equal String.length) in Heq.
    rewrite !length_append in Heq. cbn in Heq. lia.
  - apply (f_equal String.length) in Heq.
    rewrite !length_append in Heq. cbn in Heq. lia.
  - injection Heq as -> Heq. f_equal. by apply IH.
Qed.

(** *** One call, seen from outside *)

Section Outside.
Context {S : Type} `{!JsonStorage S}.
Implicit Types (request : TestDatabaseRequest) (w : World S).

Lemma run_storage request w : storage (test_database request w).2 = storage w.
Proof.
  destruct (json_get (storage w) "firebase_test_timestamp" (JObj []))
    as [v|e] eqn:Hget.
  - by rewrite (test_database_returned request w v Hget).
  - by rewrite (test_database_raised request w e Hget).
Qed.

Lemma run_storage_calls request w :
  storage_calls (test_database request w).2
  = storage_calls w ++ [JsonGet "firebase_test_timestamp" (JObj [])].
Proof.
  destruct (json_get (storage w) "firebase_test_timestamp" (JObj []))
    as [v|e] eqn:Hget.
  - rewrite (test_database_returned request w v Hget); cbn [snd].
    unfold after_read.
    by rewrite storage_calls_emit_get, storage_calls_emit_print.
  - rewrite (test_database_raised request w e Hget); cbn [snd].
    unfold after_read.
    by rewrite storage_calls_emit_print, storage_calls_emit_get,
      storage_calls_emit_print.
Qed.

Lemma run_stdout_length request w :
  length (stdout (test_database request w).2)
  = length (stdout w)
    + (if is_returned (json_get (storage w) "firebase_test_timestamp" (JObj []))
       then 1 else 2).
Proof.
  destruct (json_get (storage w) "firebase_test_timestamp" (JObj []))
    as [v|e] eqn:Hget.
  - rewrite (test_database_returned request w v Hget); cbn [snd is_returned].
    unfold after_read.
    by rewrite stdout_emit_get, stdout_emit_print, length_app.
  - rewrite (test_database_raised request w e Hget); cbn [snd is_returned].
    unfold after_read.
    rewrite stdout_emit_print, stdout_emit_get, stdout_emit_print.
    rewrite !length_app. cbn. lia.
Qed.

Lemma run_response_storage request w1 w2 :
  storage w1 = storage w2 →
  (test_database request w1).1 = (test_database request w2).1.
Proof.
  intros Hst.
  destruct (json_get (storage w1) "firebase_test_timestamp" (JObj []))
    as [v|e] eqn:Hget.
  - rewrite (test_database_returned request w1 v Hget).
    rewrite Hst in Hget. by rewrite (test_database_returned request w2 v Hget).
  - rewrite (test_database_raised request w1 e Hget).
    rewrite Hst in Hget. by rewrite (test_database_raised request w2 e Hget).
Qed.

End Outside.

Lemma run_by_answer {S1 S2 : Type} `{!JsonStorage S1} `{!JsonStorage S2}
    (request : TestDatabaseRequest) (st1 : S1) (st2 : S2) (evs : list Event) :
  json_get st1 "firebase_test_timestamp" (JObj [])
  = json_get st2 "firebase_test_timestamp" (JObj []) →
  (test_database request (mkWorld st1 evs)).1
  = (test_database request (mkWorld st2 evs)).1
  ∧ events (test_database request (mkWorld st1 evs)).2
    = events (test_database request (mkWorld st2 evs)).2.
Proof.
  intros Hsame.
  destruct (json_get st2 "firebase_test_timestamp" (JObj []))
    as [v|e] eqn:Hget2.
  - by rewrite (test_database_returned request (mkWorld st1 evs) v Hsame),
      (test_database_returned request (mkWorld st2 evs) v Hget2).
  - by rewrite (test_database_raised request (mkWorld st1 evs) e Hsame),
      (test_database_raised request (mkWorld st2 evs) e Hget2).
Qed.

(** *** What the response depends on *)

(** X1: the handler sees the store only through the answer to its one
    read.  Two stores, of any kind, that answer the read of
    ["firebase_test_timestamp"] with default [{}] alike get the same
    response and the same record of prints and storage calls. *)
Theorem answer_decides_the_run {S1 S2 : Type}
    `{!JsonStorage S1} `{!JsonStorage S2}
    (request : TestDatabaseRequest) (st1 : S1) (st2 : S2) (evs : list Event) :
  json_get st1 "firebase_test_timestamp" (JObj [])
  = json_get st2 "firebase_test_timestamp" (JObj []) →
  (test_database request (mkWorld st1 evs)).1
  = (test_database request (mkWorld st2 evs)).1
  ∧ events (test_database request (mkWorld st1 evs)).2
    = events (test_database request (mkWorld st2 evs)).2.
Proof. apply run_by_answer. Qed.

Lemma answer_decides_the_run_witness :
  json_get stamped_store "firebase_test_timestamp" (JObj [])
  = json_get
      (mkStore (<["users" := JArr [JStr "ann"; JStr "bob"]]>
                  (blobs stamped_store)) None)
      "firebase_test_timestamp" (JObj [])
  ∧ (test_database (mkRequest "/users/test") (mkWorld stamped_store [])).1
    = (test_database (mkRequest "/users/test")
         (mkWorld
            (mkStore (<["users" := JArr [JStr "ann"; JStr "bob"]]>
                        (blobs stamped_store)) None) [])).1
  ∧ events (test_database (mkRequest "/users/test")
              (mkWorld stamped_store [])).2
    = events (test_database (mkRequest "/users/test")
                (mkWorld
                   (mkStore (<["users" := JArr [JStr "ann"; JStr "bob"]]>
                               (blobs stamped_store)) None) [])).2.
Proof.
  split; [vm_compute; reflexivity|].
  apply (answer_decides_the_run (mkRequest "/users/test")).
  vm_compute; reflexivity.
Defined.

(** X2: on the concrete store, writing or deleting any key other than
    ["firebase_test_timestamp"] does not change the response. *)
Theorem other_keys_do_not_matter (request : TestDatabaseRequest) (st : Store)
    (evs : list Event) (k : string) (v : Json) :
  k ≠ "firebase_test_timestamp" →
  (test_database request
     (mkWorld (mkStore (<[k := v]> (blobs st)) (outage st)) evs)).1
  = (test_database request (mkWorld st evs)).1
  ∧ (test_database request
       (mkWorld (mkStore (delete k (blobs st)) (outage st)) evs)).1
    = (test_database request (mkWorld st evs)).1.
Proof.
  intros Hk; split; apply run_by_answer;
    unfold json_get, Store_json_storage; cbn [outage blobs];
    destruct (outage st); try done.
  - by rewrite lookup_insert_ne.
  - by rewrite lookup_delete_ne.
Qed.

Lemma other_keys_do_not_matter_witness :
  "users" ≠ "firebase_test_timestamp"
  ∧ (test_database (mkRequest "/users/test")
       (mkWorld (mkStore (<["users" := JNum 7]> (blobs stamped_store))
                   (outage stamped_store)) [])).1
    = (test_database (mkRequest "/users/test") (mkWorld stamped_store [])).1
  ∧ (test_database (mkRequest "/users/test")
       (mkWorld (mkStore (delete "users" (blobs stamped_store))
                   (outage stamped_store)) [])).1
    = (test_database (mkRequest "/users/test") (mkWorld stamped_store [])).1.
Proof.
  split; [discriminate|].
  apply (other_keys_do_not_matter (mkRequest "/users/test") stamped_store []
           "users" (JNum 7)).
  discriminate.
Defined.

(** X3: because the read is made with the default [{}], a reachable store
    that lacks the key and one that holds [{}] under it cannot be told
    apart: the responses and the records of the two runs are equal. *)
Theorem absent_key_looks_like_empty_document (request : TestDatabaseRequest)
    (st1 st2 : Store) (evs : list Event) :
  outage st1 = None → outage st2 = None →
  blobs st1 !! "firebase_test_timestamp" = None →
  blobs st2 !! "firebase_test_timestamp" = Some (JObj []) →
  (test_database request (mkWorld st1 evs)).1
  = (test_database request (mkWorld st2 evs)).1
  ∧ events (test_database request (mkWorld st1 evs)).2
    = events (test_database request (mkWorld st2 evs)).2.
Proof.
  intros Hup1 Hup2 Hnone Hsome. apply run_by_answer.
  unfold json_get, Store_json_storage. by rewrite Hup1, Hup2, Hnone, Hsome.
Qed.

Lemma absent_key_looks_like_empty_document_witness :
  (test_database (mkRequest "/users/test") (mkWorld empty_store [])).1
  = (test_database (mkRequest "/users/test")
       (mkWorld (mkStore {[ "firebase_test_timestamp" := JObj [] ]} None)
          [])).1
  ∧ events (test_database (mkRequest "/users/test")
              (mkWorld empty_store [])).2
    = events (test_database (mkRequest "/users/test")
                (mkWorld
                   (mkStore {[ "firebase_test_timestamp" := JObj [] ]} None)
                   [])).2.
Proof.
  apply (absent_key_looks_like_empty_document (mkRequest "/users/test")
           empty_store
           (mkStore {[ "firebase_test_timestamp" := JObj [] ]} None) []);
    vm_compute; reflexivity.
Defined.

(** X4: of a raised exception only [str(e)] is reported.  When the reads
    of two runs raise, the two responses are equal exactly when the two
    exceptions have the same [str]; their classes play no part. *)
Theorem only_the_description_is_reported {S : Type} `{!JsonStorage S}
    (request : TestDatabaseRequest) (w1 w2 : World S) (e1 e2 : PyException) :
  json_get (storage w1) "firebase_test_timestamp" (JObj []) = Raised e1 →
  json_get (storage w2) "firebase_test_timestamp" (JObj []) = Raised e2 →
  (test_database request w1).1 = (test_database request w2).1
  ↔ exc_str e1 = exc_str e2.
Proof.
  intros Hget1 Hget2.
  rewrite (test_database_raised request w1 e1 Hget1),
    (test_database_raised request w2 e2 Hget2); cbn [fst].
  split.
  - intros [= Hmsg]. by apply append_cancel_l in Hmsg.
  - by intros ->.
Qed.

Lemma only_the_description_is_reported_witness :
  (test_database (mkRequest "/users/test") (mkWorld refusing_store [])).1
  = (test_database (mkRequest "/users/test")
       (mkWorld
          (mkStore ∅ (Some (mkException "OSError" "connection refused")))
          [])).1
  ↔ exc_str connection_refused
    = exc_str (mkException "OSError" "connection refused").
Proof.
  apply (only_the_description_is_reported (mkRequest "/users/test")
           (mkWorld refusing_store [])
           (mkWorld
              (mkStore ∅ (Some (mkException "OSError" "connection refused")))
              [])
           connection_refused
           (mkException "OSError" "connection refused"));
    reflexivity.
Defined.

(** X5: calls made one after the other keep the store as it was and make
    one read of ["firebase_test_timestamp"] each; a request answered after
    any number of earlier ones gets the response it would get first; and
    each call adds one line to the output when the read returns, two when
    it raises. *)
Theorem earlier_calls_change_nothing {S : Type} `{!JsonStorage S}
    (earlier : list TestDatabaseRequest) (w : World S) :
  storage (foldl (λ w r, (test_database r w).2) w earlier) = storage w
  ∧ storage_calls (foldl (λ w r, (test_database r w).2) w earlier)
    = storage_calls w
      ++ replicate (length earlier)
           (JsonGet "firebase_test_timestamp" (JObj []))
  ∧ (∀ request,
       (test_database request
          (foldl (λ w r, (test_database r w).2) w earlier)).1
       = (test_database request w).1)
  ∧ length (stdout (foldl (λ w r, (test_database r w).2) w earlier))
    = length (stdout w)
      + length earlier
        * (if is_returned
                (json_get (storage w) "firebase_test_timestamp" (JObj []))
           then 1 else 2).
Proof.
  revert w. induction earlier as [|r rs IH]; intros w; cbn [foldl length].
  - rewrite app_nil_r. repeat split; lia.
  - destruct (IH (test_database r w).2) as (Hst & Hcalls & Hresp & Hout).
    rewrite run_storage in Hst, Hout.
    split; [done|]. split; [|split].
    + rewrite Hcalls, run_storage_calls, <- app_assoc. done.
    + intros request. rewrite Hresp.
      apply run_response_storage, run_storage.
    + rewrite Hout, run_stdout_length. lia.
Qed.

(** X6: the success message carries the path unchanged: two successful
    responses with the same message answer requests with the same path. *)
Theorem success_message_names_the_path {S : Type} `{!JsonStorage S}
    (r1 r2 : TestDatabaseRequest) (w1 w2 : World S)
    (resp1 resp2 : TestDatabaseResponse) :
  (test_database r1 w1).1 = Returned resp1 →
  (test_database r2 w2).1 = Returned resp2 →
  success resp1 = true → success resp2 = true →
  message resp1 = message resp2 →
  path r1 = path r2.
Proof.
  destruct (json_get (storage w1) "firebase_test_timestamp" (JObj []))
    as [v1|e1] eqn:Hget1;
    [ rewrite (test_database_returned r1 w1 v1 Hget1)
    | rewrite (test_database_raised r1 w1 e1 Hget1) ];
    intros [= <-]; [|done].
  destruct (json_get (storage w2) "firebase_test_timestamp" (JObj []))
    as [v2|e2] eqn:Hget2;
    [ rewrite (test_database_returned r2 w2 v2 Hget2)
    | rewrite (test_database_raised r2 w2 e2 Hget2) ];
    intros [= <-]; [|done].
  cbn [success message]. intros _ _ Hmsg.
  apply append_cancel_l in Hmsg. by apply append_cancel_r in Hmsg.
Qed.

Lemma success_message_names_the_path_witness :
  path (mkRequest "/users/test") = path (mkRequest "/users/test").
Proof.
  apply (success_message_names_the_path
           (mkRequest "/users/test") (mkRequest "/users/test")
           (mkWorld empty_store []) (mkWorld stamped_store [])
           {| success := true;
              message := "Firebase Realtime Database test successful. Path '/users/test' is accessible.";
              data := Some [("testTimestamp", JObj []);
                            ("databaseUrl", JStr DATABASE_URL)] |}
           {| success := true;
              message := "Firebase Realtime Database test successful. Path '/users/test' is accessible.";
              data := Some [("testTimestamp", JNum 1700000000);
                            ("databaseUrl", JStr DATABASE_URL)] |});
    vm_compute; reflexivity.
Defined.

(** X7: the flag and the message never disagree: [success] is true
    exactly when the message opens with
    ["Firebase Realtime Database test successful."]. *)
Theorem message_agrees_with_flag {S : Type} `{!JsonStorage S}
    (request : TestDatabaseRequest) (w : World S) :
  ∃ resp,
    (test_database request w).1 = Returned resp ∧
    success resp
    = String.prefix "Firebase Realtime Database test successful."
        (message resp).
Proof.
  destruct (json_get (storage w) "firebase_test_timestamp" (JObj []))
    as [v|e] eqn:Hget.
  - rewrite (test_database_returned request w v Hget). eexists; split; done.
  - rewrite (test_database_raised request w e Hget). eexists; split; done.
Qed.
